(** * Unix crash log handler of OpenTTD (src/os/unix/crashlog_unix.cpp)

    A shallow embedding of the POSIX crash handler: the text producers of
    [CrashLogUnix] as string functions, and [HandleCrash] /
    [CrashLog::InitialiseCrashLog] as programs of a small monad that threads
    the process signal-disposition table and a trace of observable actions,
    and that stops when the process is terminated. *)

From Stdlib Require Import ZArith String List Lia Bool Ascii.
From Stdlib Require Import Numbers.DecimalString.
Import ListNotations.
Open Scope string_scope.
Open Scope Z_scope.

(** ** Text helpers (what [fmt::format_to] produces) *)

Definition nl_char : ascii := "010"%char.
Definition nl : string := String nl_char EmptyString.

(** ["{}"] of an [int]. *)
Definition fmt_int (z : Z) : string := NilEmpty.string_of_int (Z.to_int z).

(** ["{:02}"] of an [int]: zero padded to width two. *)
Definition fmt_02 (z : Z) : string :=
  let s := fmt_int z in
  if (String.length s <? 2)%nat then "0" ++ s else s.

Fixpoint has_newline (s : string) : bool :=
  match s with
  | EmptyString => false
  | String c s' => Ascii.eqb c nl_char || has_newline s'
  end.

(** The newline-terminated lines of a text (a trailing unterminated
    fragment counts as a line when it is not empty). *)
Fixpoint split_lines_aux (s cur : string) : list string :=
  match s with
  | EmptyString => if String.eqb cur "" then [] else [cur]
  | String c s' =>
      if Ascii.eqb c nl_char then cur :: split_lines_aux s' ""
      else split_lines_aux s' (cur ++ String c "")
  end.

Definition split_lines (s : string) : list string := split_lines_aux s "".

(** ** C library facilities used by the producers (glibc, Linux) *)

Definition SIGILL : Z := 4.
Definition SIGABRT : Z := 6.
Definition SIGBUS : Z := 7.
Definition SIGFPE : Z := 8.
Definition SIGSEGV : Z := 11.

(** [sys_siglist] of glibc on Linux: the descriptions of the standard
    signals 1 to 31, by number (entry 0 unused). *)
Definition sys_siglist : list string :=
  [""; "Hangup"; "Interrupt"; "Quit"; "Illegal instruction";
   "Trace/breakpoint trap"; "Aborted"; "Bus error"; "Floating point exception";
   "Killed"; "User defined signal 1"; "Segmentation fault";
   "User defined signal 2"; "Broken pipe"; "Alarm clock"; "Terminated";
   "Stack fault"; "Child exited"; "Continued"; "Stopped (signal)"; "Stopped";
   "Stopped (tty input)"; "Stopped (tty output)"; "Urgent I/O condition";
   "CPU time limit exceeded"; "File size limit exceeded";
   "Virtual timer expired"; "Profiling timer expired"; "Window changed";
   "I/O possible"; "Power failure"; "Bad system call"].

(** [strsignal] of glibc: the table entry of a standard signal, a numbered
    text for the real-time range [SIGRTMIN] (34) to [SIGRTMAX] (64), and the
    fallback text otherwise. *)
Definition strsignal (n : Z) : string :=
  if (1 <=? n) && (n <=? 31) then nth (Z.to_nat n) sys_siglist ""
  else if (34 <=? n) && (n <=? 64) then "Real-time signal " ++ fmt_int (n - 34)
  else "Unknown signal " ++ fmt_int n.

(** [strerror] of glibc, for the only error [uname] reports (EFAULT). *)
Definition strerror (e : Z) : string :=
  if Z.eqb e 14 then "Bad address" else "Unknown error " ++ fmt_int e.

(** [struct utsname]. *)
Record utsname := {
  sysname : string;
  release : string;
  version : string;
  machine : string
}.

(** The result of [uname(&name)]: a negative return with [errno] set, or
    the filled structure. *)
Inductive uname_result :=
| UnameFail (errno : Z)
| UnameOk (name : utsname).

(** ** [CrashLogUnix::LogOSVersion] *)

Definition LogOSVersion (u : uname_result) : string :=
  match u with
  | UnameFail errno => "Could not get OS version: " ++ strerror errno ++ nl
  | UnameOk name =>
      "Operating system:" ++ nl ++
      " Name:     " ++ sysname name ++ nl ++
      " Release:  " ++ release name ++ nl ++
      " Version:  " ++ version name ++ nl ++
      " Machine:  " ++ machine name ++ nl
  end.

(** ** [CrashLogUnix::LogError] *)

Definition LogError (signum : Z) (message : string) : string :=
  "Crash reason:" ++ nl ++
  " Signal:  " ++ strsignal signum ++ " (" ++ fmt_int signum ++ ")" ++ nl ++
  " Message: " ++ message ++ nl ++ nl.

(** ** [CrashLogUnix::LogStacktrace] *)

(** Which branch of [#if defined(__GLIBC__)] the build took. *)
Inductive build := BuildGlibc | BuildOther.

(** [backtrace(trace, size)]: the innermost [size] return addresses of the
    current call stack ([stack] lists them innermost first). *)
Definition backtrace (stack : list Z) (size : nat) : list Z := firstn size stack.

(** [backtrace_symbols(trace, n)]: [NULL] ([None]) when its allocation fails,
    otherwise an array of one resolved string per address. *)
Definition backtrace_symbols (alloc_ok : bool) (resolve : Z -> string)
    (trace : list Z) : option (list string) :=
  if alloc_ok then Some (map resolve trace) else None.

(** The read [messages[i]]: [None] is an invalid memory access (a null
    array, or an index past its end). *)
Definition array_at (messages : option (list string)) (i : nat) : option string :=
  match messages with
  | None => None
  | Some ms => nth_error ms i
  end.

(** [for (int i = first; ...; i++) format_to(" [{:02}] {}\n", i, messages[i])],
    for [count] iterations; [None] when one of the reads faults. *)
Fixpoint frame_lines (messages : option (list string)) (first count : nat)
    : option string :=
  match count with
  | O => Some ""
  | S count' =>
      match array_at messages first with
      | None => None
      | Some m =>
          match frame_lines messages (S first) count' with
          | None => None
          | Some rest =>
              Some (" [" ++ fmt_02 (Z.of_nat first) ++ "] " ++ m ++ nl ++ rest)
          end
      end
  end.

(** What the crashing process sees of its surroundings: the collaborators'
    answers, the results of the C library calls, and the build options. *)
Record crash_env := {
  env_emergency : bool;          (** [_gamelog.TestEmergency()] *)
  env_missing_newgrfs : bool;    (** [SaveloadCrashWithMissingNewGRFs()] *)
  env_uname : uname_result;
  env_build : build;
  env_stack : list Z;            (** the call stack at the fault *)
  env_symbols_alloc_ok : bool;   (** whether [backtrace_symbols] can allocate *)
  env_resolve : Z -> string;     (** the symbol text of an address *)
  env_breakpad : option bool;    (** [None]: built without
      [WITH_UNOFFICIAL_BREAKPAD]; [Some ok]: the result of [WriteMinidump] *)
  env_message : string;          (** the crash message given to [LogError] *)
  env_sections : list string     (** the application-state sections *)
}.

(** The size of the [trace] array in [LogStacktrace]. *)
Definition trace_capacity : nat := 64.

(** [None]: the producer faults (a read through [messages] is invalid). *)
Definition LogStacktrace (e : crash_env) : option string :=
  match env_build e with
  | BuildGlibc =>
      let trace := backtrace (env_stack e) trace_capacity in
      let trace_size := length trace in
      let messages := backtrace_symbols (env_symbols_alloc_ok e) (env_resolve e) trace in
      match frame_lines messages 0 trace_size with
      | Some lines => Some ("Stacktrace:" ++ nl ++ lines ++ nl)
      | None => None
      end
  | BuildOther =>
      Some ("Stacktrace:" ++ nl ++ " Not supported." ++ nl ++ nl)
  end.

(** ** The process: signal dispositions, observable actions, termination *)

(** A signal disposition as set by [signal(2)]. *)
Inductive sighandler :=
| SIG_DFL
| SIG_IGN
| HandleCrashH                 (** our [HandleCrash] *)
| OtherHandler (id : nat).

Inductive stream := Stdout | Stderr.

(** The actions of the handler that the outside world can observe. *)
Inductive event :=
| EvSignal (sig : Z) (h : sighandler)   (** [signal(sig, h)] *)
| EvTestEmergency                       (** [_gamelog.TestEmergency()] evaluated *)
| EvTestMissingNewGRFs                  (** [SaveloadCrashWithMissingNewGRFs()] evaluated *)
| EvPrint (s : stream) (text : string)  (** text written to a standard stream *)
| EvWriteReport (contents : string)     (** the crash report file written *)
| EvRenameDump                          (** the minidump moved to its crash dump name *)
| EvCleanup                             (** [CrashLog::AfterCrashLogCleanup()] ran *)
| EvAbort.                              (** [abort()] called *)

Record proc := {
  disp : Z -> sighandler;
  trace : list event
}.

(** How the process ended. *)
Inductive stop :=
| ByAbort                       (** [abort()] *)
| ByDefaultAction (sig : Z)     (** a fault whose disposition is [SIG_DFL] *)
| ReenteredHandler (sig : Z)    (** a fault delivered to [HandleCrash] again *)
| ByOtherDisposition (sig : Z).

Inductive res (A : Type) :=
| Ok (a : A)
| Stopped (r : stop).
Arguments Ok {A} a.
Arguments Stopped {A} r.

Definition M (A : Type) : Type := proc -> res A * proc.

Definition ret {A : Type} (a : A) : M A := fun p => (Ok a, p).

Definition bind {A B : Type} (m : M A) (k : A -> M B) : M B :=
  fun p =>
    match m p with
    | (Ok a, p') => k a p'
    | (Stopped r, p') => (Stopped r, p')
    end.

Declare Scope crash_scope.
Notation "x <- m ;; k" := (bind m (fun x => k))
  (at level 61, m at next level, right associativity) : crash_scope.
Notation "m ;; k" := (bind m (fun _ => k))
  (at level 61, right associativity) : crash_scope.
Open Scope crash_scope.

Definition emit (ev : event) : M unit :=
  fun p => (Ok tt, {| disp := disp p; trace := trace p ++ [ev] |}).

(** [signal(sig, h)]. *)
Definition signal (sig : Z) (h : sighandler) : M unit :=
  fun p => (Ok tt, {| disp := fun x => if Z.eqb x sig then h else disp p x;
                      trace := trace p ++ [EvSignal sig h] |}).

(** A fault raising [sig] in the running code. *)
Definition raise {A : Type} (sig : Z) : M A :=
  fun p =>
    match disp p sig with
    | SIG_DFL => (Stopped (ByDefaultAction sig), p)
    | HandleCrashH => (Stopped (ReenteredHandler sig), p)
    | _ => (Stopped (ByOtherDisposition sig), p)
    end.

(** [abort()]: raises [SIGABRT]; its handler, if one is installed, runs
    first; otherwise the process ends. *)
Definition abort {A : Type} : M A :=
  fun p =>
    let p' := {| disp := disp p; trace := trace p ++ [EvAbort] |} in
    match disp p SIGABRT with
    | HandleCrashH => (Stopped (ReenteredHandler SIGABRT), p')
    | _ => (Stopped ByAbort, p')
    end.

(** [fmt::print(...)]: writes to the standard output. *)
Definition print (text : string) : M unit := emit (EvPrint Stdout text).

(** ** The signal set and the handler *)

(** [_signals_to_handle]. *)
Definition _signals_to_handle : list Z := [SIGSEGV; SIGABRT; SIGFPE; SIGBUS; SIGILL].

(** The loop [for (const int *i = _signals_to_handle; ...; i++)] applying [f] to each signal in order. *)
Fixpoint for_each_signal (l : list Z) (f : Z -> M unit) : M unit :=
  match l with
  | [] => ret tt
  | s :: l' => f s ;; for_each_signal l' f
  end.

Definition TestEmergency (e : crash_env) : M bool :=
  emit EvTestEmergency ;; ret (env_emergency e).

Definition SaveloadCrashWithMissingNewGRFs (e : crash_env) : M bool :=
  emit EvTestMissingNewGRFs ;; ret (env_missing_newgrfs e).

(** Modelled from the spec: [CrashLog::WriteCrashDump] of crashlog.cpp, the
    base version used by builds without a dump facility, which reports
    "unsupported" as the status 0. *)
Definition CrashLog_WriteCrashDump : M Z := ret 0.

(** [CrashLogUnix::WriteCrashDump] with its [MinidumpCallback], in a build
    with [WITH_UNOFFICIAL_BREAKPAD]: the callback moves the dump to its
    crash dump name and hands back [succeeded]. *)
Definition CrashLogUnix_WriteCrashDump (succeeded : bool) : M Z :=
  emit EvRenameDump ;;
  ret (if succeeded then 1 else -1).

(** The override selected by the build. *)
Definition WriteCrashDump (e : crash_env) : M Z :=
  match env_breakpad e with
  | None => CrashLog_WriteCrashDump
  | Some succeeded => CrashLogUnix_WriteCrashDump succeeded
  end.

(** Modelled from the spec: [CrashLog::FillCrashLog] of crashlog.cpp, which
    appends in order the OS section, the error section, the stack trace and
    the application-state sections; a fault of a producer is a fault of
    the process. *)
Definition FillCrashLog (e : crash_env) (signum : Z) : M string :=
  let os := LogOSVersion (env_uname e) in
  let err := LogError signum (env_message e) in
  match LogStacktrace e with
  | None => raise SIGSEGV
  | Some st => ret (os ++ err ++ st ++ String.concat "" (env_sections e))
  end.

(** Modelled from the spec: [CrashLog::MakeCrashLog] of crashlog.cpp: build
    the report, write it to its file, then call the dump writer and hand
    back its status. *)
Definition MakeCrashLog (e : crash_env) (signum : Z) : M Z :=
  report <- FillCrashLog e signum ;;
  emit (EvWriteReport report) ;;
  WriteCrashDump e.

(** Modelled from the spec: [CrashLog::AfterCrashLogCleanup] of
    crashlog.cpp, the best-effort cleanup hook; it does not fail. *)
Definition AfterCrashLogCleanup : M unit := emit EvCleanup.

Definition emergency_msg1 : string :=
  "A serious fault condition occurred in the game. The game will shut down." ++ nl.
Definition emergency_msg2 : string :=
  "As you loaded an emergency savegame no crash information will be generated." ++ nl.
Definition newgrf_msg1 : string := emergency_msg1.
Definition newgrf_msg2 : string :=
  "As you loaded an savegame for which you do not have the required NewGRFs" ++ nl.
Definition newgrf_msg3 : string :=
  "no crash information will be generated." ++ nl.

(** [HandleCrash(signum)]. *)
Definition HandleCrash (e : crash_env) (signum : Z) : M unit :=
  for_each_signal _signals_to_handle (fun s => signal s SIG_DFL) ;;
  em <- TestEmergency e ;;
  (if em then print emergency_msg1 ;; print emergency_msg2 ;; abort
   else ret tt) ;;
  mi <- SaveloadCrashWithMissingNewGRFs e ;;
  (if mi then print newgrf_msg1 ;; print newgrf_msg2 ;; print newgrf_msg3 ;; abort
   else ret tt) ;;
  _ <- MakeCrashLog e signum ;;
  AfterCrashLogCleanup ;;
  abort.

(** [CrashLog::InitialiseCrashLog()]. *)
Definition InitialiseCrashLog : M unit :=
  for_each_signal _signals_to_handle (fun s => signal s HandleCrashH).

(** ** Runs of the handler, in closed form *)

Definition reset_events : list event :=
  map (fun s => EvSignal s SIG_DFL) _signals_to_handle.

(** The process right after the loop that resets the dispositions. *)
Definition after_resets (p : proc) : proc :=
  snd (for_each_signal _signals_to_handle (fun s => signal s SIG_DFL) p).

Definition dump_events (e : crash_env) : list event :=
  match env_breakpad e with
  | None => []
  | Some _ => [EvRenameDump]
  end.

(** The report [FillCrashLog] builds when the stack trace producer does
    not fault. *)
Definition report_text (e : crash_env) (signum : Z) (st : string) : string :=
  LogOSVersion (env_uname e) ++ LogError signum (env_message e) ++ st ++
  String.concat "" (env_sections e).

(** What [HandleCrash] does after the reset loop. *)
Definition handle_crash_rest (e : crash_env) (signum : Z) : list event :=
  if env_emergency e then
    [EvTestEmergency; EvPrint Stdout emergency_msg1;
     EvPrint Stdout emergency_msg2; EvAbort]
  else if env_missing_newgrfs e then
    [EvTestEmergency; EvTestMissingNewGRFs; EvPrint Stdout newgrf_msg1;
     EvPrint Stdout newgrf_msg2; EvPrint Stdout newgrf_msg3; EvAbort]
  else
    match LogStacktrace e with
    | None => [EvTestEmergency; EvTestMissingNewGRFs]
    | Some st =>
        [EvTestEmergency; EvTestMissingNewGRFs;
         EvWriteReport (report_text e signum st)] ++
        dump_events e ++ [EvCleanup; EvAbort]
    end%list.

(** How [HandleCrash] ends the process. *)
Definition handle_crash_stop (e : crash_env) : stop :=
  if env_emergency e || env_missing_newgrfs e then ByAbort
  else
    match LogStacktrace e with
    | None => ByDefaultAction SIGSEGV
    | Some _ => ByAbort
    end.

Definition is_signal_event (ev : event) : bool :=
  match ev with
  | EvSignal _ _ => true
  | _ => false
  end.

Definition is_artifact_event (ev : event) : bool :=
  match ev with
  | EvWriteReport _ | EvRenameDump => true
  | _ => false
  end.

Fixpoint count_event (ev : event) (l : list event) : nat :=
  match l with
  | [] => O
  | x :: l' =>
      (if (match x, ev with
           | EvCleanup, EvCleanup => true
           | EvAbort, EvAbort => true
           | _, _ => false
           end) then 1 else 0) + count_event ev l'
  end%nat.

(** ** General lemmas *)

Lemma for_each_signal_set (l : list Z) (h : sighandler) (p : proc) :
  fst (for_each_signal l (fun s => signal s h) p) = Ok tt /\
  trace (snd (for_each_signal l (fun s => signal s h) p)) =
    (trace p ++ map (fun s => EvSignal s h) l)%list /\
  (forall x, disp (snd (for_each_signal l (fun s => signal s h) p)) x =
     if existsb (Z.eqb x) l then h else disp p x).
Proof.
  revert p. induction l as [|s l IH]; intros p.
  - cbn. rewrite app_nil_r. auto.
  - change (for_each_signal (s :: l) (fun s => signal s h) p) with
      (for_each_signal l (fun s => signal s h)
         {| disp := fun x => if Z.eqb x s then h else disp p x;
            trace := trace p ++ [EvSignal s h] |}).
    destruct (IH {| disp := fun x => if Z.eqb x s then h else disp p x;
                    trace := trace p ++ [EvSignal s h] |}) as [H1 [H2 H3]].
    repeat split.
    + exact H1.
    + rewrite H2. cbn [trace]. rewrite <- app_assoc. reflexivity.
    + intros x. rewrite H3. cbn [disp existsb].
      destruct (Z.eqb x s); destruct (existsb (Z.eqb x) l); reflexivity.
Qed.

Lemma HandleCrash_run (e : crash_env) (signum : Z) (p : proc) :
  fst (HandleCrash e signum p) = Stopped (handle_crash_stop e) /\
  trace (snd (HandleCrash e signum p)) =
    (trace p ++ reset_events ++ handle_crash_rest e signum)%list /\
  (forall x, disp (snd (HandleCrash e signum p)) x = disp (after_resets p) x).
Proof.
  unfold HandleCrash, handle_crash_stop, handle_crash_rest, after_resets,
    MakeCrashLog, FillCrashLog, WriteCrashDump, TestEmergency,
    SaveloadCrashWithMissingNewGRFs, report_text, dump_events.
  destruct (LogStacktrace e) as [st|] eqn:Hst;
  destruct (env_emergency e), (env_missing_newgrfs e);
  try destruct (env_breakpad e) as [[|]|];
  cbn; repeat split; try (intros; reflexivity);
  repeat rewrite <- app_assoc; reflexivity.
Qed.

Definition is_query_event (ev : event) : bool :=
  match ev with
  | EvTestEmergency | EvTestMissingNewGRFs => true
  | _ => false
  end.

Lemma in_signals_existsb (s : Z) :
  In s _signals_to_handle -> existsb (Z.eqb s) _signals_to_handle = true.
Proof.
  intros Hin. apply existsb_exists. exists s. split; [exact Hin | apply Z.eqb_refl].
Qed.

Lemma not_in_signals_existsb (s : Z) :
  ~ In s _signals_to_handle -> existsb (Z.eqb s) _signals_to_handle = false.
Proof.
  intros Hnin. destruct (existsb (Z.eqb s) _signals_to_handle) eqn:E; [|reflexivity].
  apply existsb_exists in E. destruct E as [x [Hx Heq]].
  apply Z.eqb_eq in Heq. subst x. contradiction.
Qed.

Lemma after_resets_disp (p : proc) (s : Z) :
  In s _signals_to_handle -> disp (after_resets p) s = SIG_DFL.
Proof.
  intros Hin. unfold after_resets.
  destruct (for_each_signal_set _signals_to_handle SIG_DFL p) as [_ [_ H]].
  rewrite H, (in_signals_existsb s Hin). reflexivity.
Qed.

(** ** Concrete runs *)

(** A process that has run [InitialiseCrashLog] from the default dispositions. *)
Definition installed_proc : proc :=
  snd (InitialiseCrashLog {| disp := fun _ => SIG_DFL; trace := [] |}).

(** A crash in a glibc build without a dump facility, with no escape
    condition, a failing [uname] and a three-frame call stack. *)
Definition sample_env : crash_env := {|
  env_emergency := false;
  env_missing_newgrfs := false;
  env_uname := UnameFail 14;
  env_build := BuildGlibc;
  env_stack := [4096; 8192; 12288];
  env_symbols_alloc_ok := true;
  env_resolve := fun a => "openttd(+0x" ++ fmt_int a ++ ")";
  env_breakpad := None;
  env_message := "";
  env_sections := ["Gamelog:" ++ nl]
|}.

Definition with_escapes (em mi : bool) (e : crash_env) : crash_env := {|
  env_emergency := em;
  env_missing_newgrfs := mi;
  env_uname := env_uname e;
  env_build := env_build e;
  env_stack := env_stack e;
  env_symbols_alloc_ok := env_symbols_alloc_ok e;
  env_resolve := env_resolve e;
  env_breakpad := env_breakpad e;
  env_message := env_message e;
  env_sections := env_sections e
|}.

(** * Claims *)

(** C1: Whatever the crash, [HandleCrash] starts by setting every signal of
    [_signals_to_handle] back to [SIG_DFL], in order, before it evaluates an
    escape condition or produces any output; it sets no disposition after
    that, so those signals keep their default action for the rest of the
    run, a further fault of one of them ends the process by the default
    action, and the run never re-enters the handler. *)
Theorem HandleCrash_resets_first (e : crash_env) (signum : Z) (p : proc) :
  (exists rest,
     trace (snd (HandleCrash e signum p)) =
       (trace p ++ map (fun s => EvSignal s SIG_DFL) _signals_to_handle ++ rest)%list /\
     forallb (fun ev => negb (is_signal_event ev)) rest = true) /\
  (forall s, In s _signals_to_handle ->
     disp (snd (HandleCrash e signum p)) s = SIG_DFL) /\
  (forall s, In s _signals_to_handle ->
     fst (raise (A := unit) s (snd (HandleCrash e signum p))) = Stopped (ByDefaultAction s)) /\
  (forall sig, fst (HandleCrash e signum p) <> Stopped (ReenteredHandler sig)).
Proof.
  destruct (HandleCrash_run e signum p) as [H1 [H2 H3]].
  assert (Hd : forall s, In s _signals_to_handle ->
            disp (snd (HandleCrash e signum p)) s = SIG_DFL).
  { intros s Hin. rewrite H3. apply after_resets_disp. exact Hin. }
  split; [|split; [exact Hd | split]].
  - exists (handle_crash_rest e signum). split; [exact H2|].
    unfold handle_crash_rest, dump_events.
    destruct (env_emergency e), (env_missing_newgrfs e); try reflexivity.
    destruct (LogStacktrace e); [|reflexivity].
    destruct (env_breakpad e); reflexivity.
  - intros s Hin. unfold raise. rewrite (Hd s Hin). reflexivity.
  - intros sig. rewrite H1. unfold handle_crash_stop.
    destruct (env_emergency e || env_missing_newgrfs e); [discriminate|].
    destruct (LogStacktrace e); discriminate.
Qed.

(** C4: [_signals_to_handle] is exactly SIGSEGV, SIGABRT, SIGFPE, SIGBUS and
    SIGILL (11, 6, 8, 7, 4 on Linux), without repetition, and
    [InitialiseCrashLog] installs [HandleCrash] for each of them, in that
    order, and changes the disposition of no other signal. *)
Theorem InitialiseCrashLog_registers (p : proc) :
  _signals_to_handle = [SIGSEGV; SIGABRT; SIGFPE; SIGBUS; SIGILL] /\
  _signals_to_handle = [11; 6; 8; 7; 4] /\
  NoDup _signals_to_handle /\
  fst (InitialiseCrashLog p) = Ok tt /\
  trace (snd (InitialiseCrashLog p)) =
    (trace p ++ map (fun s => EvSignal s HandleCrashH) _signals_to_handle)%list /\
  (forall s, In s _signals_to_handle -> disp (snd (InitialiseCrashLog p)) s = HandleCrashH) /\
  (forall s, ~ In s _signals_to_handle -> disp (snd (InitialiseCrashLog p)) s = disp p s).
Proof.
  destruct (for_each_signal_set _signals_to_handle HandleCrashH p) as [H1 [H2 H3]].
  unfold InitialiseCrashLog.
  split; [reflexivity|]. split; [reflexivity|].
  split.
  { repeat constructor; cbn; intuition discriminate. }
  split; [exact H1|]. split; [exact H2|]. split.
  - intros s Hin. rewrite H3, (in_signals_existsb s Hin). reflexivity.
  - intros s Hnin. rewrite H3, (not_in_signals_existsb s Hnin). reflexivity.
Qed.

(** C9: The emergency-savegame test comes first. When it holds, whether or
    not NewGRFs are missing, the handler prints only the emergency message
    and aborts without evaluating [SaveloadCrashWithMissingNewGRFs]; when
    it does not hold, the missing-NewGRFs test is the next action. *)
Theorem HandleCrash_emergency_first (e : crash_env) (signum : Z) (p : proc) :
  (env_emergency e = true ->
     fst (HandleCrash e signum p) = Stopped ByAbort /\
     trace (snd (HandleCrash e signum p)) =
       (trace p ++ reset_events ++
        [EvTestEmergency; EvPrint Stdout emergency_msg1;
         EvPrint Stdout emergency_msg2; EvAbort])%list) /\
  (env_emergency e = false ->
     exists rest, trace (snd (HandleCrash e signum p)) =
       (trace p ++ reset_events ++ EvTestEmergency :: EvTestMissingNewGRFs :: rest)%list).
Proof.
  destruct (HandleCrash_run e signum p) as [H1 [H2 _]].
  rewrite H1, H2. unfold handle_crash_stop, handle_crash_rest.
  split; intros Hem; rewrite Hem.
  - split; reflexivity.
  - destruct (env_missing_newgrfs e).
    + eexists. reflexivity.
    + destruct (LogStacktrace e); eexists; reflexivity.
Qed.

(** C2 (as stated it fails): the escape messages are written with
    [fmt::print], that is to the standard output; nothing reaches the
    standard error stream. *)
Lemma HandleCrash_escape_prints_to_stdout :
  (forall t, ~ In (EvPrint Stderr t)
     (trace (snd (HandleCrash (with_escapes true false sample_env) SIGSEGV installed_proc)))) /\
  In (EvPrint Stdout emergency_msg1)
     (trace (snd (HandleCrash (with_escapes true false sample_env) SIGSEGV installed_proc))).
Proof.
  destruct (HandleCrash_run (with_escapes true false sample_env) SIGSEGV installed_proc)
    as [_ [H2 _]].
  rewrite H2. cbn. split.
  - intros t H. repeat (destruct H as [H|H]; [discriminate|]). exact H.
  - right. right. right. right. right. right. right. right. right. right. right.
    left. reflexivity.
Qed.

(** C2 (amended): If either escape condition holds, [HandleCrash] evaluates
    the escape tests, prints a non-empty message to the standard output,
    and aborts: it writes no report file and no dump. *)
Theorem HandleCrash_escape_no_report (e : crash_env) (signum : Z) (p : proc)
    (Hesc : env_emergency e = true \/ env_missing_newgrfs e = true) :
  fst (HandleCrash e signum p) = Stopped ByAbort /\
  exists queries msgs,
    msgs <> [] /\
    forallb is_query_event queries = true /\
    trace (snd (HandleCrash e signum p)) =
      (trace p ++ reset_events ++ queries ++ map (EvPrint Stdout) msgs ++ [EvAbort])%list.
Proof.
  destruct (HandleCrash_run e signum p) as [H1 [H2 _]].
  rewrite H1, H2. unfold handle_crash_stop, handle_crash_rest.
  destruct (env_emergency e) eqn:Hem.
  - split; [reflexivity|].
    exists [EvTestEmergency], [emergency_msg1; emergency_msg2].
    repeat split; discriminate.
  - destruct Hesc as [Hesc|Hesc]; [discriminate|]. rewrite Hesc.
    split; [reflexivity|].
    exists [EvTestEmergency; EvTestMissingNewGRFs], [newgrf_msg1; newgrf_msg2; newgrf_msg3].
    repeat split; discriminate.
Qed.

Lemma HandleCrash_escape_no_report_witness :
  env_missing_newgrfs (with_escapes false true sample_env) = true /\
  fst (HandleCrash (with_escapes false true sample_env) SIGSEGV installed_proc) = Stopped ByAbort.
Proof.
  split; [reflexivity|].
  exact (proj1 (HandleCrash_escape_no_report (with_escapes false true sample_env)
                  SIGSEGV installed_proc (or_intror eq_refl))).
Defined.

(** A glibc build in which [backtrace_symbols] cannot allocate its result
    and returns [NULL] (the heap of a crashing process may well be
    exhausted or corrupt), with a non-empty call stack. *)
Definition nosyms_env : crash_env := {|
  env_emergency := false;
  env_missing_newgrfs := false;
  env_uname := UnameFail 14;
  env_build := BuildGlibc;
  env_stack := [4096; 8192; 12288];
  env_symbols_alloc_ok := false;
  env_resolve := fun a => "openttd(+0x" ++ fmt_int a ++ ")";
  env_breakpad := None;
  env_message := "";
  env_sections := ["Gamelog:" ++ nl]
|}.

(** C3 (the code misses it): when [backtrace_symbols] returns [NULL] the
    report producer reads through it (the defect of C10); the fault ends
    the process through the default action of SIGSEGV, so neither
    [AfterCrashLogCleanup] nor [abort()] runs. *)
Lemma HandleCrash_fault_not_abort :
  fst (HandleCrash nosyms_env SIGSEGV installed_proc) = Stopped (ByDefaultAction SIGSEGV) /\
  ~ In EvAbort (trace (snd (HandleCrash nosyms_env SIGSEGV installed_proc))) /\
  ~ In EvCleanup (trace (snd (HandleCrash nosyms_env SIGSEGV installed_proc))).
Proof.
  destruct (HandleCrash_run nosyms_env SIGSEGV installed_proc) as [H1 [H2 _]].
  rewrite H1, H2. split; [reflexivity|].
  cbn. split; intros H; repeat (destruct H as [H|H]; [discriminate|]); exact H.
Qed.


(** The status [WriteCrashDump] hands back. *)
Definition dump_status (e : crash_env) : Z :=
  match env_breakpad e with
  | None => 0
  | Some true => 1
  | Some false => -1
  end.

(** C8: [WriteCrashDump] always returns, with status 1 when the dump was
    written, -1 when writing it failed and 0 when the build has no dump
    facility. Whatever that status, once the report has been generated
    [HandleCrash] runs [AfterCrashLogCleanup] exactly once, after writing
    the report and the dump, and then aborts. *)
Theorem HandleCrash_cleanup_after_dump (e : crash_env) (signum : Z) (p : proc) (st : string)
    (Hem : env_emergency e = false) (Hmi : env_missing_newgrfs e = false)
    (Hst : LogStacktrace e = Some st) :
  fst (WriteCrashDump e p) = Ok (dump_status e) /\
  (env_breakpad e = Some true -> dump_status e > 0) /\
  (env_breakpad e = Some false -> dump_status e < 0) /\
  (env_breakpad e = None -> dump_status e = 0) /\
  fst (HandleCrash e signum p) = Stopped ByAbort /\
  trace (snd (HandleCrash e signum p)) =
    (trace p ++ reset_events ++
     [EvTestEmergency; EvTestMissingNewGRFs; EvWriteReport (report_text e signum st)] ++
     dump_events e ++ [EvCleanup; EvAbort])%list /\
  count_event EvCleanup (trace (snd (HandleCrash e signum p))) =
    (count_event EvCleanup (trace p) + 1)%nat.
Proof.
  destruct (HandleCrash_run e signum p) as [H1 [H2 _]].
  assert (Hrest : handle_crash_rest e signum =
     ([EvTestEmergency; EvTestMissingNewGRFs; EvWriteReport (report_text e signum st)] ++
      dump_events e ++ [EvCleanup; EvAbort])%list).
  { unfold handle_crash_rest. rewrite Hem, Hmi, Hst. reflexivity. }
  assert (Hcount : forall l1 l2, count_event EvCleanup (l1 ++ l2) =
                     (count_event EvCleanup l1 + count_event EvCleanup l2)%nat).
  { induction l1 as [|x l1 IH]; intros l2; cbn; [reflexivity|]. rewrite IH. lia. }
  unfold WriteCrashDump, dump_status.
  repeat split.
  - destruct (env_breakpad e) as [[|]|]; reflexivity.
  - intros Hb. rewrite Hb. lia.
  - intros Hb. rewrite Hb. lia.
  - intros Hb. rewrite Hb. reflexivity.
  - rewrite H1. unfold handle_crash_stop. rewrite Hem, Hmi, Hst. reflexivity.
  - rewrite H2, Hrest. reflexivity.
  - rewrite H2, Hrest, !Hcount. unfold dump_events.
    destruct (env_breakpad e); cbn; lia.
Qed.

(** [sample_env] with a dump facility that fails. *)
Definition failing_dump_env : crash_env := {|
  env_emergency := false;
  env_missing_newgrfs := false;
  env_uname := UnameFail 14;
  env_build := BuildGlibc;
  env_stack := [4096; 8192; 12288];
  env_symbols_alloc_ok := true;
  env_resolve := fun a => "openttd(+0x" ++ fmt_int a ++ ")";
  env_breakpad := Some false;
  env_message := "";
  env_sections := ["Gamelog:" ++ nl]
|}.

Lemma HandleCrash_cleanup_after_dump_witness :
  env_emergency failing_dump_env = false /\
  env_missing_newgrfs failing_dump_env = false /\
  (exists st, LogStacktrace failing_dump_env = Some st) /\
  fst (WriteCrashDump failing_dump_env installed_proc) = Ok (-1) /\
  fst (HandleCrash failing_dump_env SIGSEGV installed_proc) = Stopped ByAbort.
Proof.
  split; [reflexivity|]. split; [reflexivity|].
  destruct (LogStacktrace failing_dump_env) as [st|] eqn:Hst; [|discriminate Hst].
  destruct (HandleCrash_cleanup_after_dump failing_dump_env SIGSEGV installed_proc st
              eq_refl eq_refl Hst) as [Hw [_ [_ [_ [Hs _]]]]].
  split; [exists st; reflexivity|]. split; [exact Hw | exact Hs].
Defined.

(** ** Lines of text *)

Lemma str_app_assoc (a b c : string) : ((a ++ b) ++ c)%string = (a ++ b ++ c)%string.
Proof. induction a as [|x a IH]; cbn; [reflexivity|]. rewrite IH. reflexivity. Qed.

Lemma str_app_nil_r (a : string) : (a ++ "")%string = a.
Proof. induction a as [|x a IH]; cbn; [reflexivity|]. rewrite IH. reflexivity. Qed.

Lemma has_newline_app (a b : string) :
  has_newline (a ++ b) = has_newline a || has_newline b.
Proof. induction a as [|x a IH]; cbn; [reflexivity|]. rewrite IH, orb_assoc. reflexivity. Qed.

Lemma split_lines_aux_app (a s cur : string) :
  has_newline a = false -> split_lines_aux (a ++ s) cur = split_lines_aux s (cur ++ a).
Proof.
  revert cur. induction a as [|x a IH]; intros cur Ha; cbn.
  - rewrite str_app_nil_r. reflexivity.
  - cbn in Ha. apply orb_false_iff in Ha. destruct Ha as [Hx Ha].
    rewrite Hx, IH by exact Ha. rewrite str_app_assoc. reflexivity.
Qed.

Lemma split_lines_aux_nl (s cur : string) :
  split_lines_aux (nl ++ s) cur = cur :: split_lines_aux s "".
Proof. reflexivity. Qed.

Lemma string_of_uint_no_newline (d : Decimal.uint) :
  has_newline (NilEmpty.string_of_uint d) = false.
Proof. induction d; cbn; auto. Qed.

Lemma fmt_int_no_newline (z : Z) : has_newline (fmt_int z) = false.
Proof.
  unfold fmt_int, NilEmpty.string_of_int.
  destruct (Z.to_int z); cbn; apply string_of_uint_no_newline.
Qed.

Lemma sys_siglist_no_newline (k : nat) : has_newline (nth k sys_siglist "") = false.
Proof.
  do 32 (destruct k as [|k]; [reflexivity|]).
  destruct k; reflexivity.
Qed.

Lemma strsignal_no_newline (n : Z) : has_newline (strsignal n) = false.
Proof.
  unfold strsignal.
  destruct ((1 <=? n) && (n <=? 31)); [apply sys_siglist_no_newline|].
  destruct ((34 <=? n) && (n <=? 64)); rewrite has_newline_app, fmt_int_no_newline;
  reflexivity.
Qed.

Lemma strerror_no_newline (e : Z) : has_newline (strerror e) = false.
Proof.
  unfold strerror. destruct (Z.eqb e 14); [reflexivity|].
  rewrite has_newline_app, fmt_int_no_newline. reflexivity.
Qed.

(** C5: When [uname] fails, [LogOSVersion] emits the single line
    "Could not get OS version: <strerror(errno)>"; when it succeeds, the
    system name, release, version and machine. Either way it returns, and
    the report goes on with the error section and the rest. *)
Theorem LogOSVersion_on_failure :
  (forall errno,
     LogOSVersion (UnameFail errno) = "Could not get OS version: " ++ strerror errno ++ nl /\
     split_lines (LogOSVersion (UnameFail errno)) =
       ["Could not get OS version: " ++ strerror errno]) /\
  (forall name,
     LogOSVersion (UnameOk name) =
       "Operating system:" ++ nl ++
       " Name:     " ++ sysname name ++ nl ++
       " Release:  " ++ release name ++ nl ++
       " Version:  " ++ version name ++ nl ++
       " Machine:  " ++ machine name ++ nl) /\
  (forall e signum p st, LogStacktrace e = Some st ->
     fst (FillCrashLog e signum p) =
       Ok (LogOSVersion (env_uname e) ++ LogError signum (env_message e) ++ st ++
           String.concat "" (env_sections e))).
Proof.
  split; [|split].
  - intros errno. split; [reflexivity|].
    unfold split_lines, LogOSVersion.
    rewrite (split_lines_aux_app "Could not get OS version: ") by reflexivity.
    rewrite (split_lines_aux_app (strerror errno)) by apply strerror_no_newline.
    cbn. reflexivity.
  - intros name. reflexivity.
  - intros e signum p st Hst. unfold FillCrashLog. rewrite Hst. reflexivity.
Qed.

(** A crash message spanning two lines. *)
Definition two_line_message : string := "first" ++ nl ++ "second".

(** C7 (as stated it fails): the message is copied verbatim, so a message
    with a line break spreads the block over more lines and no line holds
    the whole message. *)
Lemma LogError_multiline_message :
  split_lines (LogError SIGSEGV two_line_message) =
    ["Crash reason:"; " Signal:  Segmentation fault (11)"; " Message: first";
     "second"; ""] /\
  ~ In (" Message: " ++ two_line_message) (split_lines (LogError SIGSEGV two_line_message)).
Proof.
  split; [reflexivity|].
  cbn. intros H. repeat (destruct H as [H|H]; [discriminate|]). exact H.
Qed.

(** C7 (amended): For every signal number and every message, [LogError]
    renders the fixed block "Crash reason:" /
    " Signal:  <strsignal(signum)> (<signum>)" / " Message: <message>"
    followed by an empty line, the message copied verbatim; when the
    message has no line break, these are exactly three lines and the empty
    line. *)
Theorem LogError_block (signum : Z) (message : string) :
  LogError signum message =
    "Crash reason:" ++ nl ++
    " Signal:  " ++ strsignal signum ++ " (" ++ fmt_int signum ++ ")" ++ nl ++
    " Message: " ++ message ++ nl ++ nl /\
  (has_newline message = false ->
   split_lines (LogError signum message) =
    ["Crash reason:";
     " Signal:  " ++ strsignal signum ++ " (" ++ fmt_int signum ++ ")";
     " Message: " ++ message;
     ""]).
Proof.
  split; [reflexivity|]. intros Hmsg.
  unfold split_lines, LogError.
  rewrite (split_lines_aux_app "Crash reason:") by reflexivity.
  rewrite split_lines_aux_nl.
  rewrite (split_lines_aux_app " Signal:  ") by reflexivity.
  rewrite (split_lines_aux_app (strsignal signum)) by apply strsignal_no_newline.
  rewrite (split_lines_aux_app " (") by reflexivity.
  rewrite (split_lines_aux_app (fmt_int signum)) by apply fmt_int_no_newline.
  rewrite (split_lines_aux_app ")") by reflexivity.
  rewrite split_lines_aux_nl.
  rewrite (split_lines_aux_app " Message: ") by reflexivity.
  rewrite (split_lines_aux_app message) by exact Hmsg.
  rewrite split_lines_aux_nl.
  rewrite !str_app_assoc. reflexivity.
Qed.

(** The frame lines " [ii] <symbol>" of the stack trace, numbered from [i]. *)
Fixpoint render_frames (i : nat) (ms : list string) : string :=
  match ms with
  | [] => ""
  | m :: ms' => " [" ++ fmt_02 (Z.of_nat i) ++ "] " ++ m ++ nl ++ render_frames (S i) ms'
  end.

Lemma frame_lines_some (pre ms : list string) :
  frame_lines (Some (pre ++ ms)%list) (length pre) (length ms) =
    Some (render_frames (length pre) ms).
Proof.
  revert pre. induction ms as [|m ms IH]; intros pre; [reflexivity|].
  cbn [length frame_lines array_at].
  rewrite nth_error_app2 by lia. rewrite Nat.sub_diag. cbn [nth_error].
  specialize (IH (pre ++ [m])%list).
  rewrite <- app_assoc, length_app in IH. cbn [length app] in IH.
  rewrite Nat.add_1_r in IH. rewrite IH. reflexivity.
Qed.

(** C6 (the code misses it): at this input [backtrace] captures three
    frames, within the 64 the trace holds, but [backtrace_symbols] returns
    [NULL] and the loop reads [messages[0]] through it (the defect of C10):
    the producer faults and renders no frame line. With the array, the
    same stack renders three index-prefixed lines. *)
Lemma LogStacktrace_nosyms_no_frames :
  length (backtrace (env_stack nosyms_env) trace_capacity) = 3%nat /\
  backtrace_symbols (env_symbols_alloc_ok nosyms_env) (env_resolve nosyms_env)
    (backtrace (env_stack nosyms_env) trace_capacity) = None /\
  LogStacktrace nosyms_env = None /\
  LogStacktrace sample_env =
    Some ("Stacktrace:" ++ nl ++
          " [00] openttd(+0x4096)" ++ nl ++
          " [01] openttd(+0x8192)" ++ nl ++
          " [02] openttd(+0x12288)" ++ nl ++ nl).
Proof. repeat split. Qed.

(** C10 (the code misses the case): [backtrace_symbols] returns [NULL] when
    it cannot allocate, and [LogStacktrace] then reads [messages[0]]
    through the null pointer: the producer faults instead of rendering. *)
Theorem LogStacktrace_null_symbols :
  backtrace_symbols (env_symbols_alloc_ok nosyms_env) (env_resolve nosyms_env)
    (backtrace (env_stack nosyms_env) trace_capacity) = None /\
  length (backtrace (env_stack nosyms_env) trace_capacity) = 3%nat /\
  array_at None 0 = None /\
  LogStacktrace nosyms_env = None.
Proof. repeat split. Qed.

(** * Further properties of the handler *)

(** The kernel delivering the fault signal [sig]: the disposition the
    process holds for it decides what runs. *)
Definition deliver (e : crash_env) (sig : Z) : M unit :=
  fun p =>
    match disp p sig with
    | HandleCrashH => HandleCrash e sig p
    | _ => raise sig p
    end.

(** The frame lines of [render_frames], one string per frame. *)
Fixpoint frame_line_list (i : nat) (ms : list string) : list string :=
  match ms with
  | [] => []
  | m :: ms' => (" [" ++ fmt_02 (Z.of_nat i) ++ "] " ++ m) :: frame_line_list (S i) ms'
  end.

Lemma installed_disp (p : proc) (s : Z) :
  In s _signals_to_handle -> disp (snd (InitialiseCrashLog p)) s = HandleCrashH.
Proof.
  intros Hin. unfold InitialiseCrashLog.
  destruct (for_each_signal_set _signals_to_handle HandleCrashH p) as [_ [_ H]].
  rewrite H, (in_signals_existsb s Hin). reflexivity.
Qed.

(** X1: Once [InitialiseCrashLog] has run, a fault of a handled signal runs
    [HandleCrash]; any later fault of a handled signal in that process
    ends it by the default action, without a second report or any other
    action. *)
Theorem deliver_after_install (e : crash_env) (p : proc) (s s' : Z)
    (Hs : In s _signals_to_handle) (Hs' : In s' _signals_to_handle) :
  deliver e s (snd (InitialiseCrashLog p)) = HandleCrash e s (snd (InitialiseCrashLog p)) /\
  deliver e s' (snd (HandleCrash e s (snd (InitialiseCrashLog p)))) =
    (Stopped (ByDefaultAction s'), snd (HandleCrash e s (snd (InitialiseCrashLog p)))).
Proof.
  split.
  - unfold deliver. rewrite (installed_disp p s Hs). reflexivity.
  - destruct (HandleCrash_run e s (snd (InitialiseCrashLog p))) as [_ [_ H3]].
    unfold deliver, raise. rewrite H3, (after_resets_disp _ s' Hs'). reflexivity.
Qed.

Lemma deliver_after_install_witness :
  In SIGABRT _signals_to_handle /\ In SIGSEGV _signals_to_handle /\
  fst (deliver sample_env SIGSEGV
         (snd (HandleCrash sample_env SIGABRT (snd (InitialiseCrashLog
            {| disp := fun _ => SIG_DFL; trace := [] |})))))
    = Stopped (ByDefaultAction SIGSEGV).
Proof.
  assert (Ha : In SIGABRT _signals_to_handle) by (cbn; auto).
  assert (Hg : In SIGSEGV _signals_to_handle) by (cbn; auto).
  split; [exact Ha|]. split; [exact Hg|].
  rewrite (proj2 (deliver_after_install sample_env
                    {| disp := fun _ => SIG_DFL; trace := [] |} SIGABRT SIGSEGV Ha Hg)).
  reflexivity.
Defined.

(** X2: [HandleCrash] changes the disposition of no signal outside
    [_signals_to_handle]. *)
Theorem HandleCrash_other_signals_untouched (e : crash_env) (signum : Z) (p : proc)
    (x : Z) (Hx : ~ In x _signals_to_handle) :
  disp (snd (HandleCrash e signum p)) x = disp p x.
Proof.
  destruct (HandleCrash_run e signum p) as [_ [_ H3]].
  rewrite H3. unfold after_resets.
  destruct (for_each_signal_set _signals_to_handle SIG_DFL p) as [_ [_ H]].
  rewrite H, (not_in_signals_existsb x Hx). reflexivity.
Qed.

Lemma HandleCrash_other_signals_untouched_witness :
  ~ In 2 _signals_to_handle /\
  disp (snd (HandleCrash sample_env SIGSEGV installed_proc)) 2 = disp installed_proc 2.
Proof.
  assert (H : ~ In 2 _signals_to_handle) by (cbn; intuition discriminate).
  split; [exact H|]. exact (HandleCrash_other_signals_untouched sample_env SIGSEGV installed_proc 2 H).
Defined.

(** X3: Running [InitialiseCrashLog] a second time leaves every
    disposition as the first run set it. *)
Theorem InitialiseCrashLog_idempotent (p : proc) (x : Z) :
  disp (snd (InitialiseCrashLog (snd (InitialiseCrashLog p)))) x =
  disp (snd (InitialiseCrashLog p)) x.
Proof.
  unfold InitialiseCrashLog.
  destruct (for_each_signal_set _signals_to_handle HandleCrashH p) as [_ [_ H]].
  destruct (for_each_signal_set _signals_to_handle HandleCrashH
              (snd (for_each_signal _signals_to_handle (fun s => signal s HandleCrashH) p)))
    as [_ [_ H']].
  rewrite H', H. destruct (existsb (Z.eqb x) _signals_to_handle); reflexivity.
Qed.

Lemma frame_lines_null_nonempty (first count : nat) :
  count <> O -> frame_lines None first count = None.
Proof. destruct count; [contradiction|reflexivity]. Qed.

(** X4: [LogStacktrace] faults exactly when the build uses [execinfo],
    [backtrace_symbols] returns [NULL] and the call stack is not empty;
    with an empty stack the loop reads nothing and the section is the
    header and an empty line. *)
Theorem LogStacktrace_fault_iff (e : crash_env) :
  (LogStacktrace e = None <->
   env_build e = BuildGlibc /\ env_symbols_alloc_ok e = false /\ env_stack e <> []) /\
  (env_stack e = [] -> env_build e = BuildGlibc ->
   LogStacktrace e = Some ("Stacktrace:" ++ nl ++ nl)).
Proof.
  unfold LogStacktrace, backtrace_symbols, backtrace, trace_capacity.
  split.
  - destruct (env_build e).
    + destruct (env_symbols_alloc_ok e).
      * pose proof (frame_lines_some [] (map (env_resolve e) (firstn 64 (env_stack e)))) as H.
        rewrite length_map in H. cbn [app length] in H. rewrite H.
        split; [discriminate|]. intros [_ [H' _]]. discriminate.
      * destruct (env_stack e) as [|a st] eqn:Hst.
        -- cbn. split; [discriminate|]. intros [_ [_ H']]. contradiction.
        -- cbn [firstn length]. rewrite frame_lines_null_nonempty by discriminate.
           split; [intros _; repeat split; discriminate | reflexivity].
    + split; [discriminate|]. intros [H _]. discriminate.
  - intros Hst Hb. rewrite Hb, Hst. cbn [firstn length frame_lines].
    destruct (env_symbols_alloc_ok e); reflexivity.
Qed.

(** X5: The frame index printed with ["{:02}"] is two characters wide for
    every one of the 64 frames the trace can hold. *)
Theorem fmt_02_width (i : nat) (Hi : (i < trace_capacity)%nat) :
  String.length (fmt_02 (Z.of_nat i)) = 2%nat.
Proof.
  unfold trace_capacity in Hi.
  do 64 (destruct i as [|i]; [reflexivity|]). lia.
Qed.

Lemma fmt_02_width_witness :
  (7 < trace_capacity)%nat /\ String.length (fmt_02 (Z.of_nat 7)) = 2%nat.
Proof.
  assert (H : (7 < trace_capacity)%nat) by (unfold trace_capacity; lia).
  split; [exact H | exact (fmt_02_width 7 H)].
Defined.

Lemma fmt_02_no_newline (z : Z) : has_newline (fmt_02 z) = false.
Proof.
  unfold fmt_02. destruct (String.length (fmt_int z) <? 2)%nat;
  [rewrite has_newline_app|]; rewrite fmt_int_no_newline; reflexivity.
Qed.

Lemma split_lines_render_frames (i : nat) (ms : list string) (s : string) :
  forallb (fun m => negb (has_newline m)) ms = true ->
  split_lines_aux (render_frames i ms ++ s) "" =
    (frame_line_list i ms ++ split_lines_aux s "")%list.
Proof.
  revert i. induction ms as [|m ms IH]; intros i Hms; [reflexivity|].
  cbn [forallb] in Hms. apply andb_true_iff in Hms. destruct Hms as [Hm Hms].
  apply negb_true_iff in Hm.
  cbn [render_frames frame_line_list]. rewrite !str_app_assoc.
  rewrite (split_lines_aux_app " [") by reflexivity.
  rewrite (split_lines_aux_app (fmt_02 (Z.of_nat i))) by apply fmt_02_no_newline.
  rewrite (split_lines_aux_app "] ") by reflexivity.
  rewrite (split_lines_aux_app m) by exact Hm.
  rewrite split_lines_aux_nl, IH by exact Hms.
  rewrite !str_app_assoc. reflexivity.
Qed.

Lemma forallb_firstn {A : Type} (f : A -> bool) (n : nat) (l : list A) :
  forallb f l = true -> forallb f (firstn n l) = true.
Proof.
  revert n. induction l as [|x l IH]; intros n H; destruct n; try reflexivity.
  cbn in *. apply andb_true_iff in H. destruct H as [Hx Hl].
  rewrite Hx, (IH n Hl). reflexivity.
Qed.

Lemma forallb_map_comp {A B : Type} (f : B -> bool) (g : A -> B) (l : list A) :
  forallb f (map g l) = forallb (fun a => f (g a)) l.
Proof. induction l as [|x l IH]; cbn; [reflexivity|]. rewrite IH. reflexivity. Qed.

Lemma length_frame_line_list (i : nat) (ms : list string) :
  length (frame_line_list i ms) = length ms.
Proof. revert i. induction ms as [|m ms IH]; intros i; cbn; [reflexivity|]. rewrite IH. reflexivity. Qed.

(** X6: In a glibc build whose [backtrace_symbols] returns its array of
    one-line symbol texts, the stack-trace section has exactly
    min(64, stack depth) + 2 lines: the header, one " [ii] <symbol>" line
    per captured frame in order, and an empty line. *)
Theorem LogStacktrace_lines (e : crash_env)
    (Hb : env_build e = BuildGlibc) (Hok : env_symbols_alloc_ok e = true)
    (Hsym : forallb (fun a => negb (has_newline (env_resolve e a))) (env_stack e) = true) :
  exists section,
    LogStacktrace e = Some section /\
    split_lines section =
      ("Stacktrace:" :: frame_line_list 0
          (map (env_resolve e) (backtrace (env_stack e) trace_capacity)) ++ [""])%list /\
    length (split_lines section) = (Nat.min 64 (length (env_stack e)) + 2)%nat.
Proof.
  set (ms := map (env_resolve e) (backtrace (env_stack e) trace_capacity)).
  assert (Hms : forallb (fun m => negb (has_newline m)) ms = true).
  { unfold ms. rewrite forallb_map_comp. apply forallb_firstn. exact Hsym. }
  assert (Hlines : split_lines ("Stacktrace:" ++ nl ++ render_frames 0 ms ++ nl) =
                   ("Stacktrace:" :: frame_line_list 0 ms ++ [""])%list).
  { unfold split_lines.
    rewrite (split_lines_aux_app "Stacktrace:") by reflexivity.
    rewrite split_lines_aux_nl, split_lines_render_frames by exact Hms.
    reflexivity. }
  exists ("Stacktrace:" ++ nl ++ render_frames 0 ms ++ nl). split; [|split].
  - unfold LogStacktrace, backtrace_symbols. rewrite Hb, Hok.
    pose proof (frame_lines_some [] ms) as H. unfold ms in H.
    rewrite length_map in H. cbn [app length] in H. rewrite H. reflexivity.
  - exact Hlines.
  - rewrite Hlines. cbn [length]. rewrite length_app, length_frame_line_list.
    unfold ms, backtrace, trace_capacity. rewrite length_map, length_firstn.
    cbn [length]. lia.
Qed.

Lemma LogStacktrace_lines_witness :
  env_build sample_env = BuildGlibc /\ env_symbols_alloc_ok sample_env = true /\
  forallb (fun a => negb (has_newline (env_resolve sample_env a))) (env_stack sample_env) = true /\
  exists section, LogStacktrace sample_env = Some section /\ length (split_lines section) = 5%nat.
Proof.
  split; [reflexivity|]. split; [reflexivity|]. split; [reflexivity|].
  destruct (LogStacktrace_lines sample_env eq_refl eq_refl eq_refl) as [sec [H1 [_ H3]]].
  exists sec. split; [exact H1|]. rewrite H3. reflexivity.
Defined.

(** X7: When [uname] succeeds with one-line fields, the OS section is
    exactly five lines: the header and the name, release, version and
    machine lines. *)
Theorem LogOSVersion_lines (name : utsname)
    (Hn : forallb (fun f => negb (has_newline f))
            [sysname name; release name; version name; machine name] = true) :
  split_lines (LogOSVersion (UnameOk name)) =
    ["Operating system:";
     " Name:     " ++ sysname name;
     " Release:  " ++ release name;
     " Version:  " ++ version name;
     " Machine:  " ++ machine name].
Proof.
  cbn [forallb] in Hn. rewrite !andb_true_iff, !negb_true_iff in Hn.
  destruct Hn as [H1 [H2 [H3 [H4 _]]]].
  unfold split_lines, LogOSVersion.
  rewrite (split_lines_aux_app "Operating system:") by reflexivity.
  rewrite split_lines_aux_nl.
  rewrite (split_lines_aux_app " Name:     ") by reflexivity.
  rewrite (split_lines_aux_app (sysname name)) by exact H1.
  rewrite split_lines_aux_nl.
  rewrite (split_lines_aux_app " Release:  ") by reflexivity.
  rewrite (split_lines_aux_app (release name)) by exact H2.
  rewrite split_lines_aux_nl.
  rewrite (split_lines_aux_app " Version:  ") by reflexivity.
  rewrite (split_lines_aux_app (version name)) by exact H3.
  rewrite split_lines_aux_nl.
  rewrite (split_lines_aux_app " Machine:  ") by reflexivity.
  rewrite (split_lines_aux_app (machine name)) by exact H4.
  reflexivity.
Qed.

Lemma LogOSVersion_lines_witness :
  forallb (fun f => negb (has_newline f))
    ["Linux"; "6.1.0"; "#1 SMP"; "x86_64"] = true /\
  length (split_lines (LogOSVersion (UnameOk
    {| sysname := "Linux"; release := "6.1.0"; version := "#1 SMP"; machine := "x86_64" |}))) = 5%nat.
Proof.
  split; [reflexivity|].
  rewrite (LogOSVersion_lines
    {| sysname := "Linux"; release := "6.1.0"; version := "#1 SMP"; machine := "x86_64" |}
    eq_refl).
  reflexivity.
Defined.
